(** * QuizCards: the browser client of the PDF flashcards generator

    A shallow embedding of the React client (App.jsx, api.js, FileUpload.jsx,
    SummarySection.jsx, FlashcardsSection.jsx) as a state machine driven by
    DOM events and by the settling of HTTP requests, and the properties of
    its request/response contract. *)

From Stdlib Require Import ZArith NArith List String Ascii Bool Lia DecimalString.
Import ListNotations.

(* ================================================================== *)
(** ** JavaScript values used by the client *)
(* ================================================================== *)

Module Js.

(** A JavaScript string is a sequence of UTF-16 code units. *)
Definition jsstring := list N.

(** A source-code literal (ASCII only) as a JavaScript string. *)
Definition lit (s : string) : jsstring :=
  map N_of_ascii (list_ascii_of_string s).

Fixpoint strict_eq (a b : jsstring) : bool :=
  match a, b with
  | [], [] => true
  | x :: a', y :: b' => N.eqb x y && strict_eq a' b'
  | _, _ => false
  end.

(** [ToBoolean] on a string: only the empty string is falsy. *)
Definition truthy (s : jsstring) : bool :=
  match s with [] => false | _ :: _ => true end.

(** [ToBoolean] on a value that is a string or [null]/[undefined]. *)
Definition truthy_opt (v : option jsstring) : bool :=
  match v with Some s => truthy s | None => false end.

(** [a || b] where [a] is a string or [null]/[undefined]. *)
Definition or_else (a : option jsstring) (b : jsstring) : jsstring :=
  match a with
  | Some s => if truthy s then s else b
  | None => b
  end.

(** ECMAScript WhiteSpace and LineTerminator code points, the characters
    [String.prototype.trim] strips. All of them are single code units. *)
Definition is_whitespace (c : N) : bool :=
  (   N.eqb c 0x09 || N.eqb c 0x0A || N.eqb c 0x0B || N.eqb c 0x0C
   || N.eqb c 0x0D || N.eqb c 0x20 || N.eqb c 0xA0 || N.eqb c 0x1680
   || (N.leb 0x2000 c && N.leb c 0x200A)
   || N.eqb c 0x2028 || N.eqb c 0x2029 || N.eqb c 0x202F
   || N.eqb c 0x205F || N.eqb c 0x3000 || N.eqb c 0xFEFF)%bool.

Fixpoint trimStart (s : jsstring) : jsstring :=
  match s with
  | [] => []
  | c :: s' => if is_whitespace c then trimStart s' else s
  end.

Definition trimEnd (s : jsstring) : jsstring :=
  rev (trimStart (rev s)).

Definition trim (s : jsstring) : jsstring :=
  trimEnd (trimStart s).

(** Numbers, as far as the client computes with them: integers (exact
    below 2^53) and [NaN]. *)
Inductive number :=
| Int (z : Z)
| NaN.

(** [String(n)], as a template literal interpolates a number: the plain
    decimal digits JavaScript prints for an integer of magnitude below
    10^21. Beyond, JavaScript switches to exponent notation, which is
    not modelled: statements about printed numbers stay below. *)
Definition toString (n : number) : jsstring :=
  match n with
  | Int z => lit (NilZero.string_of_int (Z.to_int z))
  | NaN => lit "NaN"
  end.

(** The value of a code unit as a digit in the given radix. *)
Definition digit_of (radix : Z) (c : N) : option Z :=
  (let c := Z.of_N c in
   let d := if (48 <=? c) && (c <=? 57) then Some (c - 48)
            else if (97 <=? c) && (c <=? 122) then Some (c - 97 + 10)
            else if (65 <=? c) && (c <=? 90) then Some (c - 65 + 10)
            else None in
   match d with
   | Some v => if v <? radix then Some v else None
   | None => None
   end)%Z.

(** The longest prefix of digits, accumulated left to right; [None]
    when there is no digit at all. *)
Fixpoint parse_digits (radix : Z) (s : jsstring) (acc : option Z) : option Z :=
  match s with
  | [] => acc
  | c :: s' =>
      match digit_of radix c with
      | Some d =>
          let a := match acc with Some a => a | None => 0%Z end in
          parse_digits radix s' (Some (radix * a + d)%Z)
      | None => acc
      end
  end.

(** [parseInt(s)] without a radix argument: leading white space is
    skipped, then an optional sign, then an optional [0x]/[0X] prefix
    selecting radix 16, then the longest run of digits. *)
Definition parseInt (s : jsstring) : number :=
  let s1 := trimStart s in
  let '(sign, s2) :=
    match s1 with
    | c :: r => if N.eqb c 45 then ((-1)%Z, r)
                else if N.eqb c 43 then (1%Z, r)
                else (1%Z, s1)
    | [] => (1%Z, s1)
    end in
  let '(radix, s3) :=
    match s2 with
    | c0 :: cx :: r =>
        if N.eqb c0 48 && (N.eqb cx 120 || N.eqb cx 88) then (16%Z, r)
        else (10%Z, s2)
    | _ => (10%Z, s2)
    end in
  match parse_digits radix s3 None with
  | Some v => Int (sign * v)
  | None => NaN
  end.

End Js.

Import Js.


(* ================================================================== *)
(** ** The HTTP contract *)
(* ================================================================== *)

(** A browser [File] object, as far as the client inspects it. *)
Record File := { name : jsstring; type : jsstring }.

Module Contract.

(** Modelled from the spec: the JSON payloads of the HTTP service, whose
    declarations (the backend's response models) are not part of the
    sources. [/upload] answers [{text}], [/summarize] answers
    [{summary, original_length, summary_length}], [/flashcards] answers
    [{flashcards: [{question, answer}], total_count}], and a response
    outside 2xx carries [{detail: string}]. *)
Record ExtractedContent := { text : jsstring }.

Record Summary := {
  summary : jsstring;
  original_length : Z;
  summary_length : Z
}.

Record Flashcard := { question : jsstring; answer : jsstring }.

Record FlashcardSet := { flashcards : list Flashcard; total_count : Z }.

Record ErrorData := { detail : option jsstring }.

(** What axios rejects a request with: [response] is undefined when no
    response arrived at all, and holds the response when its status is
    outside 200..299; [data] is the parsed body, when there is one. *)
Record ErrorResponse := { status : Z; data : option ErrorData }.

Record AxiosError := { response : option ErrorResponse }.

(** [error.response?.data?.detail] *)
Definition detail_of (e : AxiosError) : option jsstring :=
  match response e with
  | Some r => match data r with
              | Some d => detail d
              | None => None
              end
  | None => None
  end.

End Contract.

Import Contract.

(* ================================================================== *)
(** ** api.js *)
(* ================================================================== *)

Inductive Method := GET | POST.

Inductive FormValue :=
| FormFile (f : File)
| FormString (s : jsstring).

Inductive Body :=
| NoBody
| FormData (entries : list (jsstring * FormValue))
| Json_text (text : jsstring).   (* the object [{ text }] *)

Record Request := {
  method : Method;
  url : jsstring;
  body : Body;
  contentType : jsstring
}.

Module apiService.

Definition API_BASE_URL : jsstring := lit "http://localhost:8000".

Definition api_post (url : jsstring) (b : Body) (ct : jsstring) : Request :=
  {| method := POST; url := url; body := b; contentType := ct |}.

(** [FormData.append] *)
Definition append (fd : list (jsstring * FormValue)) (k : string)
    (v : FormValue) : list (jsstring * FormValue) :=
  fd ++ [(lit k, v)].

Definition uploadContent (file : option File) (text : option jsstring)
    : Request :=
  let formData := [] in
  let formData :=
    match file with
    | Some f => append formData "file" (FormFile f)
    | None => formData
    end in
  let formData :=
    match text with
    | Some t => if truthy t then append formData "text" (FormString t)
                else formData
    | None => formData
    end in
  api_post (lit "/upload") (FormData formData) (lit "multipart/form-data").

Definition generateSummary (text : jsstring) : Request :=
  api_post (lit "/summarize") (Json_text text) (lit "application/json").

(** [numCards = 5] is the default of an omitted (undefined) argument. *)
Definition generateFlashcards (text : jsstring) (numCards : option number)
    : Request :=
  let numCards := match numCards with Some n => n | None => Int 5 end in
  api_post (lit "/flashcards?num_cards=" ++ toString numCards)
           (Json_text text) (lit "application/json").

Definition healthCheck : Request :=
  {| method := GET; url := lit "/"; body := NoBody;
     contentType := lit "application/json" |}.

End apiService.

(* ================================================================== *)
(** ** react-query: the observer behind [useMutation] *)
(* ================================================================== *)

Module Query.

(** Every [mutate] call starts a mutation of its own; the observer
    reports the status of the latest one. [pending] are the mutations
    whose request has not settled yet. *)
Record Mutation := {
  nextId : nat;
  current : option nat;
  pending : list nat
}.

Definition idle : Mutation :=
  {| nextId := 0; current := None; pending := [] |}.

Definition is_pending (id : nat) (m : Mutation) : bool :=
  existsb (Nat.eqb id) (pending m).

Definition isLoading (m : Mutation) : bool :=
  match current m with
  | Some id => is_pending id m
  | None => false
  end.

Definition mutate (m : Mutation) : Mutation :=
  {| nextId := S (nextId m);
     current := Some (nextId m);
     pending := nextId m :: pending m |}.

Definition settle (id : nat) (m : Mutation) : Mutation :=
  {| nextId := nextId m;
     current := current m;
     pending := filter (fun j => negb (Nat.eqb id j)) (pending m) |}.

End Query.

(* ================================================================== *)
(** ** The state of the page *)
(* ================================================================== *)

Inductive Tab := pdf | text_tab.

(** What the handlers do to the outside of the component tree. *)
Inductive Effect :=
| Send (r : Request)
| Alert (msg : jsstring)
| ConsoleError (label : jsstring) (e : AxiosError)
| PreventDefault
| ResetFileInput          (* [e.target.value = ''] *)
| OpenFilePicker.         (* [file-input.click()] on an enabled input *)

(** The [useState] cells of App, FileUpload and FlashcardsSection, the
    three mutation observers, and the effects performed so far. *)
Record World := {
  (* App *)
  extractedText : jsstring;
  summary : option Summary;
  flashcards : option FlashcardSet;
  error : option jsstring;
  uploadMutation : Query.Mutation;
  summaryMutation : Query.Mutation;
  flashcardsMutation : Query.Mutation;
  (* FileUpload *)
  activeTab : Tab;
  textInput : jsstring;
  selectedFile : option File;
  (* FlashcardsSection *)
  numCards : number;
  (* outside *)
  effects : list Effect
}.

Definition initial : World :=
  {| extractedText := lit "";
     summary := None;
     flashcards := None;
     error := None;
     uploadMutation := Query.idle;
     summaryMutation := Query.idle;
     flashcardsMutation := Query.idle;
     activeTab := pdf;
     textInput := lit "";
     selectedFile := None;
     numCards := Int 5;
     effects := [] |}.

(** The handlers run in a state monad over the page. *)
Definition M (A : Type) : Type := World -> A * World.

Definition ret {A} (a : A) : M A := fun w => (a, w).

Definition bind {A B} (m : M A) (k : A -> M B) : M B :=
  fun w => let '(a, w') := m w in k a w'.

Declare Scope js_scope.
Delimit Scope js_scope with js.
Notation "m1 ;; m2" := (bind m1 (fun _ => m2))
  (at level 61, right associativity) : js_scope.
Open Scope js_scope.

Definition exec {A} (m : M A) (w : World) : World := snd (m w).

(** The state setters, one per cell. *)
Definition setExtractedText (v : jsstring) : M unit := fun w =>
  (tt,
   {| extractedText := v; summary := summary w; flashcards := flashcards w;
      error := error w; uploadMutation := uploadMutation w;
      summaryMutation := summaryMutation w;
      flashcardsMutation := flashcardsMutation w; activeTab := activeTab w;
      textInput := textInput w; selectedFile := selectedFile w;
      numCards := numCards w; effects := effects w |}).

Definition setSummary (v : option Summary) : M unit := fun w =>
  (tt,
   {| extractedText := extractedText w; summary := v;
      flashcards := flashcards w; error := error w;
      uploadMutation := uploadMutation w;
      summaryMutation := summaryMutation w;
      flashcardsMutation := flashcardsMutation w; activeTab := activeTab w;
      textInput := textInput w; selectedFile := selectedFile w;
      numCards := numCards w; effects := effects w |}).

Definition setFlashcards (v : option FlashcardSet) : M unit := fun w =>
  (tt,
   {| extractedText := extractedText w; summary := summary w;
      flashcards := v; error := error w;
      uploadMutation := uploadMutation w;
      summaryMutation := summaryMutation w;
      flashcardsMutation := flashcardsMutation w; activeTab := activeTab w;
      textInput := textInput w; selectedFile := selectedFile w;
      numCards := numCards w; effects := effects w |}).

Definition setError (v : option jsstring) : M unit := fun w =>
  (tt,
   {| extractedText := extractedText w; summary := summary w;
      flashcards := flashcards w; error := v;
      uploadMutation := uploadMutation w;
      summaryMutation := summaryMutation w;
      flashcardsMutation := flashcardsMutation w; activeTab := activeTab w;
      textInput := textInput w; selectedFile := selectedFile w;
      numCards := numCards w; effects := effects w |}).

Definition set_uploadMutation (v : Query.Mutation) : M unit := fun w =>
  (tt,
   {| extractedText := extractedText w; summary := summary w;
      flashcards := flashcards w; error := error w; uploadMutation := v;
      summaryMutation := summaryMutation w;
      flashcardsMutation := flashcardsMutation w; activeTab := activeTab w;
      textInput := textInput w; selectedFile := selectedFile w;
      numCards := numCards w; effects := effects w |}).

Definition set_summaryMutation (v : Query.Mutation) : M unit := fun w =>
  (tt,
   {| extractedText := extractedText w; summary := summary w;
      flashcards := flashcards w; error := error w;
      uploadMutation := uploadMutation w; summaryMutation := v;
      flashcardsMutation := flashcardsMutation w; activeTab := activeTab w;
      textInput := textInput w; selectedFile := selectedFile w;
      numCards := numCards w; effects := effects w |}).

Definition set_flashcardsMutation (v : Query.Mutation) : M unit := fun w =>
  (tt,
   {| extractedText := extractedText w; summary := summary w;
      flashcards := flashcards w; error := error w;
      uploadMutation := uploadMutation w;
      summaryMutation := summaryMutation w; flashcardsMutation := v;
      activeTab := activeTab w; textInput := textInput w;
      selectedFile := selectedFile w; numCards := numCards w;
      effects := effects w |}).

Definition setActiveTab (v : Tab) : M unit := fun w =>
  (tt,
   {| extractedText := extractedText w; summary := summary w;
      flashcards := flashcards w; error := error w;
      uploadMutation := uploadMutation w;
      summaryMutation := summaryMutation w;
      flashcardsMutation := flashcardsMutation w; activeTab := v;
      textInput := textInput w; selectedFile := selectedFile w;
      numCards := numCards w; effects := effects w |}).

Definition setTextInput (v : jsstring) : M unit := fun w =>
  (tt,
   {| extractedText := extractedText w; summary := summary w;
      flashcards := flashcards w; error := error w;
      uploadMutation := uploadMutation w;
      summaryMutation := summaryMutation w;
      flashcardsMutation := flashcardsMutation w; activeTab := activeTab w;
      textInput := v; selectedFile := selectedFile w;
      numCards := numCards w; effects := effects w |}).

Definition setSelectedFile (v : option File) : M unit := fun w =>
  (tt,
   {| extractedText := extractedText w; summary := summary w;
      flashcards := flashcards w; error := error w;
      uploadMutation := uploadMutation w;
      summaryMutation := summaryMutation w;
      flashcardsMutation := flashcardsMutation w; activeTab := activeTab w;
      textInput := textInput w; selectedFile := v; numCards := numCards w;
      effects := effects w |}).

Definition setNumCards (v : number) : M unit := fun w =>
  (tt,
   {| extractedText := extractedText w; summary := summary w;
      flashcards := flashcards w; error := error w;
      uploadMutation := uploadMutation w;
      summaryMutation := summaryMutation w;
      flashcardsMutation := flashcardsMutation w; activeTab := activeTab w;
      textInput := textInput w; selectedFile := selectedFile w;
      numCards := v; effects := effects w |}).

Definition set_effects (v : list Effect) : M unit := fun w =>
  (tt,
   {| extractedText := extractedText w; summary := summary w;
      flashcards := flashcards w; error := error w;
      uploadMutation := uploadMutation w;
      summaryMutation := summaryMutation w;
      flashcardsMutation := flashcardsMutation w; activeTab := activeTab w;
      textInput := textInput w; selectedFile := selectedFile w;
      numCards := numCards w; effects := v |}).

Definition emit (e : Effect) : M unit := fun w =>
  set_effects (effects w ++ [e]) w.

(* ================================================================== *)
(** ** App.jsx *)
(* ================================================================== *)

Module App.

(** *** Upload mutation *)
Module uploadMutation.

Definition mutate (file : option File) (text : option jsstring) : M unit :=
  fun w =>
    (set_uploadMutation (Query.mutate (uploadMutation w)) ;;
     emit (Send (apiService.uploadContent file text))) w.

Definition onSuccess (data : ExtractedContent) : M unit :=
  setExtractedText (Contract.text data) ;;
  setSummary None ;;
  setFlashcards None ;;
  setError None.

Definition onError (error : AxiosError) : M unit :=
  emit (ConsoleError (lit "Upload error:") error) ;;
  setError (Some (or_else (detail_of error)
                          (lit "Failed to process content"))).

(** What react-query does when the request of mutation [id] settles: the
    mutation is no longer pending, and the callback given to
    [useMutation] runs on the response data or on the error. *)
Definition settled (id : nat) (r : ExtractedContent + AxiosError) : M unit :=
  fun w =>
    (set_uploadMutation (Query.settle id (uploadMutation w)) ;;
     match r with
     | inl data => onSuccess data
     | inr error => onError error
     end) w.

End uploadMutation.

(** *** Summary mutation *)
Module summaryMutation.

Definition mutate (text : jsstring) : M unit :=
  fun w =>
    (set_summaryMutation (Query.mutate (summaryMutation w)) ;;
     emit (Send (apiService.generateSummary text))) w.

Definition onSuccess (data : Summary) : M unit :=
  setSummary (Some data) ;;
  setError None.

Definition onError (error : AxiosError) : M unit :=
  emit (ConsoleError (lit "Summary error:") error) ;;
  setError (Some (or_else (detail_of error)
                          (lit "Failed to generate summary"))).

Definition settled (id : nat) (r : Summary + AxiosError) : M unit :=
  fun w =>
    (set_summaryMutation (Query.settle id (summaryMutation w)) ;;
     match r with
     | inl data => onSuccess data
     | inr error => onError error
     end) w.

End summaryMutation.

(** *** Flashcards mutation *)
Module flashcardsMutation.

Definition mutate (text : jsstring) (numCards : number) : M unit :=
  fun w =>
    (set_flashcardsMutation (Query.mutate (flashcardsMutation w)) ;;
     emit (Send (apiService.generateFlashcards text (Some numCards)))) w.

Definition onSuccess (data : FlashcardSet) : M unit :=
  setFlashcards (Some data) ;;
  setError None.

Definition onError (error : AxiosError) : M unit :=
  emit (ConsoleError (lit "Flashcards error:") error) ;;
  setError (Some (or_else (detail_of error)
                          (lit "Failed to generate flashcards"))).

Definition settled (id : nat) (r : FlashcardSet + AxiosError) : M unit :=
  fun w =>
    (set_flashcardsMutation (Query.settle id (flashcardsMutation w)) ;;
     match r with
     | inl data => onSuccess data
     | inr error => onError error
     end) w.

End flashcardsMutation.

Definition handleFileSelect (file : File) : M unit :=
  uploadMutation.mutate (Some file) None.

Definition handleTextInput (text : jsstring) : M unit :=
  uploadMutation.mutate None (Some text).

Definition handleGenerateSummary : M unit := fun w =>
  (if truthy (extractedText w)
   then summaryMutation.mutate (extractedText w)
   else ret tt) w.

Definition handleGenerateFlashcards (numCards : number) : M unit := fun w =>
  (if truthy (extractedText w)
   then flashcardsMutation.mutate (extractedText w) numCards
   else ret tt) w.

Definition clearError : M unit :=
  setError None.

End App.

(* ================================================================== *)
(** ** The rendered controls *)
(* ================================================================== *)

Inductive Control :=
| TabPdf | TabText            (* the two tab buttons of FileUpload *)
| DropZone                    (* the dashed drop area, a [div] *)
| FileInput                   (* [input#file-input] *)
| TextArea
| SubmitText                  (* the "Submit Text" button *)
| GenerateSummary             (* the button of SummarySection *)
| NumCardsSelect              (* [select#numCards] *)
| GenerateFlashcards          (* the button of FlashcardsSection *)
| CloseError.                 (* the button of the error banner *)

(** An element that carries an event handler. A [div] has no [disabled]
    attribute; form controls have one. A [select] lists the values of
    its options. *)
Inductive Element :=
| button (c : Control) (disabled : bool)
| div (c : Control)
| input (c : Control) (disabled : bool)
| textarea (c : Control) (disabled : bool)
| select (c : Control) (disabled : bool) (options : list jsstring).

Definition control_of (e : Element) : Control :=
  match e with
  | button c _ | div c | input c _ | textarea c _ | select c _ _ => c
  end.

Definition disabled_of (e : Element) : bool :=
  match e with
  | button _ d | input _ d | textarea _ d | select _ d _ => d
  | div _ => false
  end.

Definition Control_eqb (a b : Control) : bool :=
  match a, b with
  | TabPdf, TabPdf | TabText, TabText | DropZone, DropZone
  | FileInput, FileInput | TextArea, TextArea | SubmitText, SubmitText
  | GenerateSummary, GenerateSummary | NumCardsSelect, NumCardsSelect
  | GenerateFlashcards, GenerateFlashcards | CloseError, CloseError => true
  | _, _ => false
  end.

(* ================================================================== *)
(** ** FileUpload.jsx *)
(* ================================================================== *)

Module FileUpload.

Section Props.

Variable onFileSelect : File -> M unit.
Variable onTextInput : jsstring -> M unit.
Variable isLoading : bool.

(** [e.target.files] of the change event of the file input. *)
Definition handleFileChange (files : list File) : M unit :=
  match hd_error files with
  | Some file =>
      if strict_eq (type file) (lit "application/pdf") then
        setSelectedFile (Some file) ;;
        onFileSelect file
      else
        emit (Alert (lit "Please select a PDF file")) ;;
        emit ResetFileInput
  | None => ret tt
  end.

Definition handleTextSubmit : M unit := fun w =>
  (if truthy (trim (textInput w))
   then onTextInput (textInput w)
   else ret tt) w.

Definition handleDragOver : M unit :=
  emit PreventDefault.

(** [e.dataTransfer.files] of the drop event. *)
Definition handleDrop (files : list File) : M unit :=
  emit PreventDefault ;;
  match hd_error files with
  | Some file =>
      if strict_eq (type file) (lit "application/pdf") then
        setSelectedFile (Some file) ;;
        onFileSelect file
      else
        emit (Alert (lit "Please drop a PDF file"))
  | None => emit (Alert (lit "Please drop a PDF file"))
  end.

(** [document.getElementById('file-input').click()]: the click of a
    disabled form control does nothing. *)
Definition clickDropZone : M unit :=
  if isLoading then ret tt else emit OpenFilePicker.

Definition render (w : World) : list Element :=
  [button TabPdf false; button TabText false]
  ++ match activeTab w with
     | pdf => [div DropZone; input FileInput isLoading]
     | text_tab =>
         [textarea TextArea isLoading;
          button SubmitText (negb (truthy (trim (textInput w))) || isLoading)]
     end.

End Props.

End FileUpload.

(* ================================================================== *)
(** ** SummarySection.jsx *)
(* ================================================================== *)

Module SummarySection.

(** [None] is the [null] the component returns. *)
Definition render (extractedText : jsstring) (isLoading : bool)
    : option (list Element) :=
  if negb (truthy extractedText) then None
  else Some [button GenerateSummary isLoading].

End SummarySection.

(* ================================================================== *)
(** ** FlashcardsSection.jsx *)
(* ================================================================== *)

Module FlashcardsSection.

(** The values the selector lists. *)
Definition offered : list number :=
  [Int 3; Int 4; Int 5; Int 6; Int 7; Int 8; Int 9; Int 10].

Section Props.

Variable onGenerateFlashcards : number -> M unit.
Variable isLoading : bool.

Definition handleGenerate : M unit := fun w =>
  onGenerateFlashcards (numCards w) w.

(** [onChange] of the selector, with [e.target.value]. *)
Definition handleSelect (value : jsstring) : M unit :=
  setNumCards (parseInt value).

Definition render (extractedText : jsstring) : option (list Element) :=
  if negb (truthy extractedText) then None
  else Some [select NumCardsSelect isLoading (map toString offered);
             button GenerateFlashcards isLoading].

End Props.

End FlashcardsSection.

(* ================================================================== *)
(** ** The page: what is rendered, and what events do *)
(* ================================================================== *)

Definition from_null (r : option (list Element)) : list Element :=
  match r with Some l => l | None => [] end.

(** The tree App returns, reduced to the elements with handlers. *)
Definition render (w : World) : list Element :=
  (if truthy_opt (error w) then [button CloseError false] else [])
  ++ FileUpload.render (Query.isLoading (uploadMutation w)) w
  ++ from_null (SummarySection.render (extractedText w)
                  (Query.isLoading (summaryMutation w)))
  ++ from_null (FlashcardsSection.render
                  (Query.isLoading (flashcardsMutation w)) (extractedText w)).

Inductive Event :=
| Click (c : Control)
| DragOver
| Drop (files : list File)
| ChangeFile (files : list File)
| ChangeText (value : jsstring)
| ChangeSelect (value : jsstring)
| UploadSettled (id : nat) (r : ExtractedContent + AxiosError)
| SummarySettled (id : nat) (r : Summary + AxiosError)
| FlashcardsSettled (id : nat) (r : FlashcardSet + AxiosError).

(** The control [c] is on the page and not disabled. *)
Definition enabled (c : Control) (w : World) : bool :=
  existsb (fun e => Control_eqb (control_of e) c && negb (disabled_of e))
          (render w).

(** The selector is on the page, not disabled, and lists [value]. *)
Definition selectable (value : jsstring) (w : World) : bool :=
  existsb (fun e => match e with
                    | select NumCardsSelect d opts =>
                        negb d && existsb (strict_eq value) opts
                    | _ => false
                    end)
          (render w).

(** The events the browser can deliver in a state: user events reach
    only rendered, enabled controls, and only a pending request settles. *)
Definition deliverable (w : World) (ev : Event) : bool :=
  match ev with
  | Click c => enabled c w
  | DragOver | Drop _ => enabled DropZone w
  | ChangeFile _ => enabled FileInput w
  | ChangeText _ => enabled TextArea w
  | ChangeSelect v => selectable v w
  | UploadSettled id _ => Query.is_pending id (uploadMutation w)
  | SummarySettled id _ => Query.is_pending id (summaryMutation w)
  | FlashcardsSettled id _ => Query.is_pending id (flashcardsMutation w)
  end.

(** The handler the JSX attaches to each event. *)
Definition handler (w : World) (ev : Event) : M unit :=
  match ev with
  | Click TabPdf => setActiveTab pdf
  | Click TabText => setActiveTab text_tab
  | Click DropZone =>
      FileUpload.clickDropZone (Query.isLoading (uploadMutation w))
  | Click SubmitText => FileUpload.handleTextSubmit App.handleTextInput
  | Click GenerateSummary => App.handleGenerateSummary
  | Click GenerateFlashcards =>
      FlashcardsSection.handleGenerate App.handleGenerateFlashcards
  | Click CloseError => App.clearError
  | Click (FileInput | TextArea | NumCardsSelect) => ret tt
  | DragOver => FileUpload.handleDragOver
  | Drop files => FileUpload.handleDrop App.handleFileSelect files
  | ChangeFile files => FileUpload.handleFileChange App.handleFileSelect files
  | ChangeText v => setTextInput v
  | ChangeSelect v => FlashcardsSection.handleSelect v
  | UploadSettled id r => App.uploadMutation.settled id r
  | SummarySettled id r => App.summaryMutation.settled id r
  | FlashcardsSettled id r => App.flashcardsMutation.settled id r
  end.

Definition dispatch (w : World) (ev : Event) : World :=
  exec (handler w ev) w.

(** One step of the page, and the states it can be in. *)
Definition step (w : World) (ev : Event) (w' : World) : Prop :=
  deliverable w ev = true /\ w' = dispatch w ev.

Inductive reachable : World -> Prop :=
| reachable_initial : reachable initial
| reachable_step w ev w' : reachable w -> step w ev w' -> reachable w'.

(** Running a list of events, whether deliverable or not. *)
Definition run (w : World) (evs : list Event) : World :=
  fold_left dispatch evs w.

(** The requests among the effects. *)
Definition requests (l : list Effect) : list Request :=
  flat_map (fun e => match e with Send r => [r] | _ => [] end) l.

Definition sent (w : World) : list Request := requests (effects w).

(** The three pieces of derived state App holds. *)
Definition content (w : World)
    : jsstring * option Summary * option FlashcardSet :=
  (extractedText w, summary w, flashcards w).

(** The state local to FileUpload and FlashcardsSection. *)
Definition local_state (w : World) : Tab * jsstring * option File * number :=
  (activeTab w, textInput w, selectedFile w, numCards w).

(** [p] is a prefix of [s]. *)
Fixpoint is_prefix (p s : jsstring) : bool :=
  match p, s with
  | [], _ => true
  | x :: p', y :: s' => N.eqb x y && is_prefix p' s'
  | _ :: _, [] => false
  end.

(** A request to the [/flashcards] endpoint. *)
Definition flashcards_request (r : Request) : bool :=
  is_prefix (lit "/flashcards") (url r).

(** Every event of the list can be delivered in the state it meets. *)
Fixpoint all_deliverable (w : World) (evs : list Event) : bool :=
  match evs with
  | [] => true
  | ev :: evs' => deliverable w ev && all_deliverable (dispatch w ev) evs'
  end.

(** A session: text is pasted and uploaded, eight cards are asked for. *)
Definition w_demo : World :=
  run initial
    [Click TabText; ChangeText (lit "Cells divide.");
     Click SubmitText;
     UploadSettled 0 (inl {| Contract.text := lit "Cells divide." |});
     ChangeSelect (lit "8");
     Click GenerateFlashcards].

Definition pdfA : File :=
  {| name := lit "a.pdf"; type := lit "application/pdf" |}.

Definition pdfB : File :=
  {| name := lit "b.pdf"; type := lit "application/pdf" |}.

(** The page right after a PDF was dropped: its upload is outstanding. *)
Definition w_uploading : World :=
  run initial [Drop [pdfA]].

(* ================================================================== *)
(** ** The HTTP service *)
(* ================================================================== *)

Module Service.

Section Adapter.

(** The flashcard adapter: given text and a requested card count, a
    list of question/answer pairs, or a failure. *)
Variable flashcard_adapter : jsstring -> number -> option (list Flashcard).

(** The detail message of an upstream failure. *)
Variable failure_detail : jsstring.

(** Modelled from the spec: the handler of [POST /flashcards] of the
    HTTP service, which is not part of the sources. It invokes the
    flashcard adapter on the text and the requested card count and
    shapes the JSON response, a [FlashcardSet] whose [total_count] is
    the length of the list; an upstream failure is answered 5xx with a
    detail message. *)
Definition flashcards_endpoint (text : jsstring) (num_cards : number)
    : FlashcardSet + ErrorResponse :=
  match flashcard_adapter text num_cards with
  | Some cards =>
      inl {| Contract.flashcards := cards;
             Contract.total_count := Z.of_nat (List.length cards) |}
  | None =>
      inr {| status := 500;
             data := Some {| detail := Some failure_detail |} |}
  end.

End Adapter.

End Service.

(* ================================================================== *)
(** ** App.jsx: the content preview *)
(* ================================================================== *)

Module ContentPreview.

(** [s.substring(indexStart, indexEnd)]: the arguments are swapped when
    out of order and clamped to the length of the string. *)
Definition substring (s : jsstring) (indexStart indexEnd : nat) : jsstring :=
  let lo := Nat.min indexStart indexEnd in
  let hi := Nat.max indexStart indexEnd in
  firstn (hi - lo) (skipn lo s).

(** [s.split(sep)] for a separator of one code unit. *)
Fixpoint split (sep : N) (s : jsstring) : list jsstring :=
  match s with
  | [] => [[]]
  | c :: s' =>
      if N.eqb c sep then [] :: split sep s'
      else match split sep s' with
           | piece :: pieces => (c :: piece) :: pieces
           | [] => [[c]]
           end
  end.

(** [pieces.join(sep)], the inverse of [split]. *)
Fixpoint join (sep : N) (pieces : list jsstring) : jsstring :=
  match pieces with
  | [] => []
  | [piece] => piece
  | piece :: rest => piece ++ sep :: join sep rest
  end.

(** The text of the preview paragraph. *)
Definition shown (extractedText : jsstring) : jsstring :=
  if (500 <? List.length extractedText)%nat
  then substring extractedText 0 500 ++ lit "..."
  else extractedText.

(** [extractedText.split(' ').length] *)
Definition words (extractedText : jsstring) : nat :=
  List.length (split 32 extractedText).

(** [extractedText.length] *)
Definition characters (extractedText : jsstring) : nat :=
  List.length extractedText.

Record View := {
  paragraph : jsstring;
  words_label : jsstring;
  characters_label : jsstring
}.

(** [{extractedText && (...)}]: nothing for the empty string. *)
Definition render (extractedText : jsstring) : option View :=
  if truthy extractedText then
    Some {| paragraph := shown extractedText;
            words_label :=
              toString (Int (Z.of_nat (words extractedText))) ++ lit " words";
            characters_label :=
              toString (Int (Z.of_nat (characters extractedText)))
              ++ lit " characters" |}
  else None.

End ContentPreview.

(* ================================================================== *)
(** ** FlashcardsSection.jsx: the cards *)
(* ================================================================== *)

Module FlashcardItem.

(** What a card shows. *)
Record View := {
  badge : jsstring;            (* [Card {index + 1}] *)
  hint : jsstring;             (* [Click to ...] *)
  heading : jsstring;          (* [Question:] or [Answer:] *)
  body_text : jsstring;
  dots : bool * bool           (* which of the two dots is highlighted *)
}.

Definition render (flashcard : Flashcard) (index : nat) (isFlipped : bool)
    : View :=
  {| badge := lit "Card " ++ toString (Int (Z.of_nat index + 1));
     hint := lit "Click to "
             ++ (if isFlipped then lit "show question" else lit "show answer");
     heading := if isFlipped then lit "Answer:" else lit "Question:";
     body_text := if isFlipped then answer flashcard else question flashcard;
     dots := (negb isFlipped, isFlipped) |}.

(** [onClick={() => setIsFlipped(!isFlipped)}] *)
Definition onClick (isFlipped : bool) : bool := negb isFlipped.

(** The state of a card after [n] clicks; [useState(false)] at first. *)
Definition clicked (n : nat) : bool := Nat.iter n onClick false.

End FlashcardItem.

Module FlashcardsResults.

(** [array.map((flashcard, index) => ...)]: the elements with their
    indices, counted from [index]. *)
Fixpoint map_indexed {A B} (f : A -> nat -> B) (index : nat) (l : list A)
    : list B :=
  match l with
  | [] => []
  | x :: l' => f x index :: map_indexed f (S index) l'
  end.

Inductive View :=
| Grid (header : jsstring) (cards : list FlashcardItem.View)
| Placeholder.

(** The lower half of FlashcardsSection: the grid of cards or the
    placeholder. [isFlipped index] is the state of the FlashcardItem
    mounted at [index]: the cards are keyed by their index, so a card
    keeps its state as long as a card stays mounted at that index, also
    when a new response replaces the list. *)
Definition render (flashcards : option FlashcardSet)
    (isFlipped : nat -> bool) : View :=
  match flashcards with
  | Some fs =>
      if (0 <? List.length (Contract.flashcards fs))%nat then
        Grid (lit "Generated " ++ toString (Int (total_count fs))
              ++ lit " flashcard"
              ++ (if negb (Z.eqb (total_count fs) 1) then lit "s" else lit ""))
             (map_indexed (fun flashcard index =>
                             FlashcardItem.render flashcard index
                               (isFlipped index))
                          0 (Contract.flashcards fs))
      else Placeholder
  | None => Placeholder
  end.



End FlashcardsResults.

(* ================================================================== *)
(** ** Histories of the page *)
(* ================================================================== *)

(** What an event does to the derived state, as the three onSuccess
    callbacks have it: only a request that succeeds writes it. *)
Definition content_step
    (c : jsstring * option Summary * option FlashcardSet) (ev : Event)
    : jsstring * option Summary * option FlashcardSet :=
  let '(t, s, f) := c in
  match ev with
  | UploadSettled _ (inl data) => (Contract.text data, None, None)
  | SummarySettled _ (inl data) => (t, Some data, f)
  | FlashcardsSettled _ (inl data) => (t, s, Some data)
  | _ => c
  end.

(** The settling of a request with an error. *)
Definition is_failure (ev : Event) : bool :=
  match ev with
  | UploadSettled _ (inr _) | SummarySettled _ (inr _)
  | FlashcardsSettled _ (inr _) => true
  | _ => false
  end.

(** The requests the handlers build. *)
Definition issued (r : Request) : Prop :=
  (exists f, type f = lit "application/pdf"
             /\ r = apiService.uploadContent (Some f) None)
  \/ (exists t, truthy (trim t) = true
                /\ r = apiService.uploadContent None (Some t))
  \/ (exists t, truthy t = true /\ r = apiService.generateSummary t)
  \/ (exists t n, truthy t = true
                  /\ r = apiService.generateFlashcards t (Some n)).

(** An upload with exactly one form field: a PDF under [file], or text
    that is not blank under [text]. *)
Definition single_field_upload (r : Request) : bool :=
  match body r with
  | FormData [(k, FormFile f)] =>
      strict_eq k (lit "file") && strict_eq (type f) (lit "application/pdf")
  | FormData [(k, FormString t)] =>
      strict_eq k (lit "text") && truthy (trim t)
  | _ => false
  end.

(** At most one request of an observer is outstanding, and it is the one
    the observer reports on. *)
Definition at_most_one (m : Query.Mutation) : Prop :=
  Query.pending m = []
  \/ exists id, Query.pending m = [id] /\ Query.current m = Some id.

(** The control [c] is on the page, enabled or not. *)
Definition on_page (c : Control) (w : World) : bool :=
  existsb (fun e => Control_eqb (control_of e) c) (render w).

(* ================================================================== *)
(** ** Basic facts *)
(* ================================================================== *)

Lemma strict_eq_iff (a b : jsstring) : strict_eq a b = true <-> a = b.
Proof.
  revert b; induction a as [|x a IH]; intros [|y b]; simpl;
    try (split; congruence).
  rewrite andb_true_iff, N.eqb_eq, IH. split.
  - intros [-> ->]; reflexivity.
  - intros H; injection H; auto.
Qed.

Lemma strict_eq_neq (a b : jsstring) : a <> b -> strict_eq a b = false.
Proof.
  intros H. destruct (strict_eq a b) eqn:E; [|reflexivity].
  apply strict_eq_iff in E. contradiction.
Qed.

Lemma requests_app (l1 l2 : list Effect) :
  requests (l1 ++ l2) = requests l1 ++ requests l2.
Proof. unfold requests. apply flat_map_app. Qed.

Lemma trimStart_whitespace (s : jsstring) :
  forallb is_whitespace s = true -> trimStart s = [].
Proof.
  induction s as [|c s IH]; simpl; [reflexivity|].
  intros H. apply andb_true_iff in H as [Hc Hs].
  rewrite Hc. auto.
Qed.

Lemma trim_whitespace (s : jsstring) :
  forallb is_whitespace s = true -> trim s = [].
Proof.
  intros H. unfold trim, trimEnd.
  rewrite (trimStart_whitespace s H). reflexivity.
Qed.

Example parseInt_10 : parseInt (lit "10") = Int 10.
Proof. reflexivity. Qed.

Example parseInt_px : parseInt (lit "  -42px") = Int (-42).
Proof. reflexivity. Qed.

Example parseInt_hex : parseInt (lit "0x1f") = Int 31.
Proof. reflexivity. Qed.

Example parseInt_nan : parseInt (lit "abc") = NaN.
Proof. reflexivity. Qed.

Example toString_7 : toString (Int 7) = lit "7".
Proof. reflexivity. Qed.

Example trim_ex : trim (lit "  a b  ") = lit "a b".
Proof. reflexivity. Qed.

Example flashcards_url_default :
  url (apiService.generateFlashcards (lit "t") None)
  = lit "/flashcards?num_cards=5".
Proof. reflexivity. Qed.

Ltac unfold_handlers :=
  unfold dispatch, handler, exec,
    FileUpload.handleTextSubmit, FileUpload.handleFileChange,
    FileUpload.handleDrop, FileUpload.handleDragOver, FileUpload.clickDropZone,
    FlashcardsSection.handleGenerate, FlashcardsSection.handleSelect,
    App.handleGenerateSummary, App.handleGenerateFlashcards,
    App.handleFileSelect, App.handleTextInput, App.clearError,
    App.uploadMutation.settled, App.summaryMutation.settled,
    App.flashcardsMutation.settled.

Ltac sent_simpl :=
  unfold sent; cbn; rewrite ?requests_app; cbn; rewrite ?app_nil_r.

Ltac unfold_render :=
  unfold deliverable, enabled, selectable, render, FileUpload.render,
    SummarySection.render, FlashcardsSection.render.

(** What an event can add to the requests sent so far. *)
Lemma dispatch_sent w ev :
  sent (dispatch w ev) = sent w
  \/ (exists file text,
         sent (dispatch w ev) = sent w ++ [apiService.uploadContent file text])
  \/ (truthy (extractedText w) = true
      /\ sent (dispatch w ev)
         = sent w ++ [apiService.generateSummary (extractedText w)])
  \/ (truthy (extractedText w) = true
      /\ sent (dispatch w ev)
         = sent w ++ [apiService.generateFlashcards (extractedText w)
                        (Some (numCards w))]).
Proof.
  destruct ev as [c| |files|files|v|v|id r|id r|id r].
  - destruct c; unfold_handlers;
      try (left; sent_simpl; reflexivity).
    + destruct (Query.isLoading (uploadMutation w)); left; sent_simpl; reflexivity.
    + destruct (truthy (trim (textInput w))).
      * right; left. eexists _, _. sent_simpl. reflexivity.
      * left; reflexivity.
    + destruct (truthy (extractedText w)) eqn:E.
      * right; right; left. split; [reflexivity|]. sent_simpl. reflexivity.
      * left; reflexivity.
    + destruct (truthy (extractedText w)) eqn:E.
      * right; right; right. split; [reflexivity|]. sent_simpl. reflexivity.
      * left; reflexivity.
  - left. unfold_handlers. sent_simpl. reflexivity.
  - unfold_handlers. destruct (hd_error files) as [f|].
    + destruct (strict_eq (type f) (lit "application/pdf")).
      * right; left. eexists _, _. sent_simpl. reflexivity.
      * left. sent_simpl. reflexivity.
    + left. sent_simpl. reflexivity.
  - unfold_handlers. destruct (hd_error files) as [f|].
    + destruct (strict_eq (type f) (lit "application/pdf")).
      * right; left. eexists _, _. sent_simpl. reflexivity.
      * left. sent_simpl. reflexivity.
    + left. reflexivity.
  - left; reflexivity.
  - left; reflexivity.
  - left. unfold_handlers. destruct r; sent_simpl; reflexivity.
  - left. unfold_handlers. destruct r; sent_simpl; reflexivity.
  - left. unfold_handlers. destruct r; sent_simpl; reflexivity.
Qed.

(** Only the selector writes numCards. *)
Lemma dispatch_numCards w ev :
  numCards (dispatch w ev) = numCards w
  \/ exists v, ev = ChangeSelect v /\ numCards (dispatch w ev) = parseInt v.
Proof.
  destruct ev as [c| |files|files|v|v|id r|id r|id r];
    try (right; eexists; split; reflexivity);
    left; unfold_handlers.
  - destruct c; try reflexivity.
    + destruct (Query.isLoading (uploadMutation w)); reflexivity.
    + destruct (truthy (trim (textInput w))); reflexivity.
    + destruct (truthy (extractedText w)); reflexivity.
    + destruct (truthy (extractedText w)); reflexivity.
  - reflexivity.
  - destruct (hd_error files) as [f|]; [|reflexivity].
    destruct (strict_eq (type f) (lit "application/pdf")); reflexivity.
  - destruct (hd_error files) as [f|]; [|reflexivity].
    destruct (strict_eq (type f) (lit "application/pdf")); reflexivity.
  - reflexivity.
  - destruct r; reflexivity.
  - destruct r; reflexivity.
  - destruct r; reflexivity.
Qed.

Lemma existsb_eqb_In v l : existsb (strict_eq v) l = true -> In v l.
Proof.
  intros H. apply existsb_exists in H as (x & Hx & E).
  apply strict_eq_iff in E. subst x. exact Hx.
Qed.

Lemma offered_parse v :
  existsb (strict_eq v) (map toString FlashcardsSection.offered) = true ->
  exists z, (3 <= z <= 10)%Z /\ v = toString (Int z) /\ parseInt v = Int z.
Proof.
  intros H. apply existsb_eqb_In in H.
  unfold FlashcardsSection.offered in H. cbn [map In] in H.
  repeat (destruct H as [H|H];
          [subst v; eexists; split; [|split; reflexivity]; lia|]).
  contradiction.
Qed.

Lemma selectable_offered w v :
  selectable v w = true ->
  existsb (strict_eq v) (map toString FlashcardsSection.offered) = true.
Proof.
  unfold selectable, render, FileUpload.render, SummarySection.render,
    FlashcardsSection.render.
  destruct (truthy_opt (error w)), (activeTab w), (truthy (extractedText w));
    cbn [app from_null negb existsb orb andb]; try discriminate;
    rewrite orb_false_r; intros H; apply andb_true_iff in H; apply H.
Qed.

(** In every state of the page numCards is one of the offered values. *)
Lemma reachable_numCards w :
  reachable w -> exists z, (3 <= z <= 10)%Z /\ numCards w = Int z.
Proof.
  induction 1 as [|w ev w' Hr IH [Hd ->]].
  - exists 5%Z. split; [lia|reflexivity].
  - destruct (dispatch_numCards w ev) as [->|(v & -> & ->)]; [exact IH|].
    apply selectable_offered, offered_parse in Hd.
    destruct Hd as (z & Hz & _ & Hp). eauto.
Qed.

Lemma run_reachable evs : forall w,
  reachable w -> all_deliverable w evs = true -> reachable (run w evs).
Proof.
  induction evs as [|ev evs IH]; intros w Hr H; simpl in *; [exact Hr|].
  apply andb_true_iff in H as [Hd Hok].
  apply IH; [|exact Hok].
  apply reachable_step with (w := w) (ev := ev); [exact Hr|split; auto].
Qed.

(** A fallback that is not empty makes [a || fallback] not empty. *)
Lemma or_else_truthy d (fallback : jsstring) :
  truthy fallback = true -> truthy (or_else d fallback) = true.
Proof.
  intros H. destruct d as [[|c s]|]; simpl; auto.
Qed.

(** The banner's button is on the page exactly when error is truthy. *)
Lemma close_enabled_iff w : enabled CloseError w = truthy_opt (error w).
Proof.
  unfold_render.
  destruct (truthy_opt (error w)), (activeTab w),
    (truthy (extractedText w)); reflexivity.
Qed.

(* ================================================================== *)
(** ** The client state machine *)
(* ================================================================== *)

(** C1: a successful upload sets extractedText to the returned text and
    resets summary and flashcards to null, whatever they held; so after
    upload A, a summary, and upload B, the summary is null again. *)
Theorem upload_success_clears_results :
  (forall w id data,
      let w' := dispatch w (UploadSettled id (inl data)) in
      extractedText w' = Contract.text data
      /\ summary w' = None
      /\ flashcards w' = None)
  /\ (forall w i j k a s b,
      let w1 := dispatch w (UploadSettled i (inl a)) in
      let w2 := dispatch w1 (SummarySettled j (inl s)) in
      let w3 := dispatch w2 (UploadSettled k (inl b)) in
      summary w2 = Some s
      /\ extractedText w3 = Contract.text b
      /\ summary w3 = None).
Proof.
  split; intros; repeat split; reflexivity.
Qed.

(** C6: a successful summarize request stores its result in summary and
    leaves flashcards and extractedText as they were; a successful
    flashcards request stores its result in flashcards and leaves summary
    and extractedText as they were. *)
Theorem success_populates_own_branch :
  (forall w id data,
      let w' := dispatch w (SummarySettled id (inl data)) in
      summary w' = Some data
      /\ flashcards w' = flashcards w
      /\ extractedText w' = extractedText w)
  /\ (forall w id data,
      let w' := dispatch w (FlashcardsSettled id (inl data)) in
      flashcards w' = Some data
      /\ summary w' = summary w
      /\ extractedText w' = extractedText w).
Proof.
  split; intros; repeat split; reflexivity.
Qed.

(** C3: when a request fails, whichever of the three, the handler sets the
    error banner message and nothing else. The message is the detail of
    the response when there is one that is not empty, and the fallback of
    the action otherwise; it is never empty, so the banner is on the
    page. extractedText, summary and flashcards keep their values
    (nothing is rolled back), the local state of the components is
    untouched, the only effect is the console log, and no request is
    sent (nothing is retried). *)
Theorem failure_sets_only_error :
  forall w id e,
    let outcome (w' : World) (label fallback : string) :=
      error w' = Some (match detail_of e with
                       | Some (c :: s) => c :: s
                       | Some [] | None => lit fallback
                       end)
      /\ truthy_opt (error w') = true
      /\ enabled CloseError w' = true
      /\ content w' = content w
      /\ local_state w' = local_state w
      /\ effects w' = effects w ++ [ConsoleError (lit label) e]
      /\ sent w' = sent w in
    outcome (dispatch w (UploadSettled id (inr e)))
            "Upload error:"%string "Failed to process content"%string
    /\ outcome (dispatch w (SummarySettled id (inr e)))
               "Summary error:"%string "Failed to generate summary"%string
    /\ outcome (dispatch w (FlashcardsSettled id (inr e)))
               "Flashcards error:"%string
               "Failed to generate flashcards"%string.
Proof.
  intros w id e outcome. subst outcome. cbv beta.
  split; [|split];
    (split; [cbn; destruct (detail_of e) as [[|c s]|]; reflexivity|]);
    (split; [cbn; destruct (detail_of e) as [[|c s]|]; reflexivity|]);
    (split; [rewrite close_enabled_iff; cbn;
             destruct (detail_of e) as [[|c s]|]; reflexivity|]);
    (split; [reflexivity|]); (split; [reflexivity|]);
    (split; [reflexivity|]);
    unfold sent; cbn; rewrite requests_app; cbn; apply app_nil_r.
Qed.

(** C5, as the spec states it, fails: a response whose detail is the
    empty string has a detail field, yet the banner shows the fallback
    message, since [||] takes the empty string for absent. *)
Lemma empty_detail_shows_fallback :
  ~ (forall w id e s,
        detail_of e = Some s ->
        error (dispatch w (UploadSettled id (inr e))) = Some s).
Proof.
  intros H.
  specialize (H initial 0%nat
    {| response := Some {| status := 400;
                           data := Some {| detail := Some (lit "") |} |} |}
    (lit "") eq_refl).
  discriminate H.
Qed.

(** C5, amended: the banner shows the detail string of the failed
    response verbatim when it is present and not empty; when the detail is
    absent (or there is no response or no body at all) or empty, it shows
    the fallback message of the action. *)
Theorem error_banner_message :
  forall w id e,
    let shown fallback :=
      Some (match detail_of e with
            | Some (c :: s) => c :: s
            | Some [] | None => lit fallback
            end) in
    error (dispatch w (UploadSettled id (inr e)))
      = shown "Failed to process content"%string
    /\ error (dispatch w (SummarySettled id (inr e)))
      = shown "Failed to generate summary"%string
    /\ error (dispatch w (FlashcardsSettled id (inr e)))
      = shown "Failed to generate flashcards"%string.
Proof.
  intros w id e. cbn.
  destruct (detail_of e) as [[|c s]|]; repeat split; reflexivity.
Qed.

(** C2: every response the /flashcards endpoint gives has total_count
    equal to the length of its flashcards list. *)
Theorem flashcards_total_count :
  forall adapter failure_detail text num_cards resp,
    Service.flashcards_endpoint adapter failure_detail text num_cards
      = inl resp ->
    Contract.total_count resp
      = Z.of_nat (List.length (Contract.flashcards resp)).
Proof.
  intros adapter fd t n resp. unfold Service.flashcards_endpoint.
  destruct (adapter t n) as [cards|]; [|discriminate].
  intros H; injection H as <-. reflexivity.
Qed.

Lemma flashcards_total_count_witness :
  let adapter (t : jsstring) (n : number) :=
    Some [ {| question := lit "Q1"; answer := lit "A1" |};
           {| question := lit "Q2"; answer := lit "A2" |} ] in
  let resp := {| Contract.flashcards :=
                   [ {| question := lit "Q1"; answer := lit "A1" |};
                     {| question := lit "Q2"; answer := lit "A2" |} ];
                 Contract.total_count := 2 |} in
  Service.flashcards_endpoint adapter (lit "failed") (lit "text") (Int 2)
    = inl resp
  /\ Contract.total_count resp
     = Z.of_nat (List.length (Contract.flashcards resp)).
Proof.
  split; [reflexivity|].
  apply (@flashcards_total_count
           (fun _ _ => Some [ {| question := lit "Q1"; answer := lit "A1" |};
                              {| question := lit "Q2"; answer := lit "A2" |} ])
           (lit "failed") (lit "text") (Int 2)).
  reflexivity.
Defined.

(* ================================================================== *)
(** ** FileUpload: what is forwarded to the upload handlers *)
(* ================================================================== *)

(** The guards let well-formed input through: text with something other
    than white space goes to onTextInput, a PDF goes to onFileSelect. *)
Lemma text_submit_forwards w onTextInput :
  truthy (trim (textInput w)) = true ->
  exec (FileUpload.handleTextSubmit onTextInput) w
  = exec (onTextInput (textInput w)) w.
Proof.
  intros H. unfold exec, FileUpload.handleTextSubmit. rewrite H. reflexivity.
Qed.

Lemma pdf_forwarded w onFileSelect files file :
  hd_error files = Some file ->
  type file = lit "application/pdf" ->
  exec (FileUpload.handleFileChange onFileSelect files) w
  = exec (setSelectedFile (Some file) ;; onFileSelect file) w
  /\ exec (FileUpload.handleDrop onFileSelect files) w
     = exec (emit PreventDefault ;;
             setSelectedFile (Some file) ;; onFileSelect file) w.
Proof.
  intros Hhd Hty. apply strict_eq_iff in Hty.
  unfold FileUpload.handleFileChange, FileUpload.handleDrop.
  rewrite Hhd, Hty. split; reflexivity.
Qed.

Example w_demo_sent :
  sent w_demo
  = [apiService.uploadContent None (Some (lit "Cells divide."));
     apiService.generateFlashcards (lit "Cells divide.") (Some (Int 8))].
Proof. reflexivity. Qed.

(** C8: when the text field is empty or holds only white space, submitting
    it sends no /upload request: the submit handler calls neither
    onTextInput nor anything else and leaves the page as it is, and the
    submit button is rendered disabled (so it is not an enabled control of
    the page). *)
Theorem blank_text_not_submitted :
  forall w,
    forallb is_whitespace (textInput w) = true ->
    (forall onTextInput, exec (FileUpload.handleTextSubmit onTextInput) w = w)
    /\ sent (dispatch w (Click SubmitText)) = sent w
    /\ (forall isLoading,
           activeTab w = text_tab ->
           In (button SubmitText true) (FileUpload.render isLoading w))
    /\ enabled SubmitText w = false.
Proof.
  intros w H. pose proof (trim_whitespace _ H) as Ht.
  repeat split.
  - intros f. unfold exec, FileUpload.handleTextSubmit. rewrite Ht. reflexivity.
  - unfold dispatch, handler, exec, FileUpload.handleTextSubmit.
    rewrite Ht. reflexivity.
  - intros l Htab. unfold FileUpload.render. rewrite Htab, Ht. simpl. auto.
  - unfold enabled, render, FileUpload.render, SummarySection.render,
      FlashcardsSection.render.
    rewrite Ht.
    destruct (truthy_opt (error w)), (activeTab w),
      (truthy (extractedText w)); reflexivity.
Qed.

Lemma blank_text_not_submitted_witness :
  let w := dispatch (dispatch initial (Click TabText))
                    (ChangeText (lit "   ")) in
  sent (dispatch w (Click SubmitText)) = sent w
  /\ enabled SubmitText w = false.
Proof.
  intros w.
  destruct (blank_text_not_submitted w eq_refl) as (_ & Hs & _ & He).
  split; assumption.
Defined.

(** C10: a selected or dropped file whose type is not application/pdf is
    not forwarded: whatever onFileSelect is, the change handler only
    alerts and empties the input, and the drop handler only alerts; on the
    page, neither sends a request nor changes the selected file. *)
Theorem non_pdf_never_forwarded :
  forall files file w,
    hd_error files = Some file ->
    type file <> lit "application/pdf" ->
    (forall onFileSelect,
        exec (FileUpload.handleFileChange onFileSelect files) w
        = exec (emit (Alert (lit "Please select a PDF file")) ;;
                emit ResetFileInput) w)
    /\ (forall onFileSelect,
        exec (FileUpload.handleDrop onFileSelect files) w
        = exec (emit PreventDefault ;;
                emit (Alert (lit "Please drop a PDF file"))) w)
    /\ sent (dispatch w (ChangeFile files)) = sent w
    /\ sent (dispatch w (Drop files)) = sent w
    /\ selectedFile (dispatch w (ChangeFile files)) = selectedFile w
    /\ selectedFile (dispatch w (Drop files)) = selectedFile w.
Proof.
  intros files file w Hhd Hty. apply strict_eq_neq in Hty.
  unfold dispatch, handler, FileUpload.handleFileChange, FileUpload.handleDrop.
  rewrite Hhd, Hty.
  repeat split; try reflexivity;
    unfold sent; cbn; rewrite !requests_app; cbn; rewrite ?app_nil_r;
    reflexivity.
Qed.

Lemma non_pdf_never_forwarded_witness :
  let f := {| name := lit "notes.txt"; type := lit "text/plain" |} in
  sent (dispatch initial (ChangeFile [f])) = sent initial
  /\ sent (dispatch initial (Drop [f])) = sent initial.
Proof.
  intros f.
  assert (Hty : type f <> lit "application/pdf") by (vm_compute; discriminate).
  destruct (@non_pdf_never_forwarded [f] f initial eq_refl Hty)
    as (_ & _ & Hc & Hd & _).
  split; assumption.
Defined.

(* ================================================================== *)
(** ** The generate requests *)
(* ================================================================== *)

(** C9: while extractedText is empty, no /summarize or /flashcards
    request is issued: the two generate handlers do nothing, the summary
    and flashcards sections render null, so their buttons are not on the
    page, and whatever event is dispatched, the only request it can send
    is an /upload. *)
Theorem no_generation_without_content :
  forall w, extractedText w = [] ->
    exec App.handleGenerateSummary w = w
    /\ (forall n, exec (App.handleGenerateFlashcards n) w = w)
    /\ (forall isLoading,
           SummarySection.render (extractedText w) isLoading = None
           /\ FlashcardsSection.render isLoading (extractedText w) = None)
    /\ enabled GenerateSummary w = false
    /\ enabled GenerateFlashcards w = false
    /\ (forall ev,
           sent (dispatch w ev) = sent w
           \/ exists file text,
               sent (dispatch w ev)
               = sent w ++ [apiService.uploadContent file text]).
Proof.
  intros w H. repeat split.
  - unfold exec, App.handleGenerateSummary. rewrite H. reflexivity.
  - intros n. unfold exec, App.handleGenerateFlashcards. rewrite H. reflexivity.
  - rewrite H. reflexivity.
  - rewrite H. reflexivity.
  - unfold_render. rewrite H.
    destruct (truthy_opt (error w)), (activeTab w); reflexivity.
  - unfold_render. rewrite H.
    destruct (truthy_opt (error w)), (activeTab w); reflexivity.
  - intros ev.
    destruct (dispatch_sent w ev) as [E|[E|[(T & _)|(T & _)]]]; auto;
      rewrite H in T; discriminate T.
Qed.

Lemma no_generation_without_content_witness :
  exec App.handleGenerateSummary initial = initial
  /\ enabled GenerateFlashcards initial = false.
Proof.
  destruct (no_generation_without_content initial eq_refl)
    as (Hs & _ & _ & _ & Hf & _).
  split; assumption.
Defined.

(** C7: in every state the page can reach, each /flashcards request sent
    so far carries a num_cards between 3 and 10, numCards itself is
    between 3 and 10, the selector lets the user choose only the values 3
    to 10, and numCards starts at 5. *)
Theorem num_cards_between_3_and_10 :
  forall w, reachable w ->
    (forall r, In r (sent w) -> flashcards_request r = true ->
       exists z, (3 <= z <= 10)%Z
                 /\ url r = lit "/flashcards?num_cards=" ++ toString (Int z))
    /\ (exists z, (3 <= z <= 10)%Z /\ numCards w = Int z)
    /\ (forall v, selectable v w = true ->
          exists z, (3 <= z <= 10)%Z /\ v = toString (Int z))
    /\ numCards initial = Int 5.
Proof.
  intros w Hr. split; [|split; [|split]].
  - induction Hr as [|w ev w' Hr IH [Hd ->]]; intros r Hin Hf.
    + contradiction.
    + pose proof (@reachable_numCards w Hr) as (z & Hz & Hn).
      destruct (dispatch_sent w ev)
        as [E|[(f & t & E)|[(_ & E)|(_ & E)]]]; rewrite E in Hin.
      * auto.
      * apply in_app_or in Hin as [Hin|[<-|[]]]; [auto|discriminate Hf].
      * apply in_app_or in Hin as [Hin|[<-|[]]]; [auto|discriminate Hf].
      * apply in_app_or in Hin as [Hin|[<-|[]]]; [auto|].
        exists z. split; [exact Hz|]. rewrite Hn. reflexivity.
  - apply reachable_numCards, Hr.
  - intros v Hv. apply selectable_offered, offered_parse in Hv.
    destruct Hv as (z & Hz & Hv & _). eauto.
  - reflexivity.
Qed.

Lemma num_cards_between_3_and_10_witness :
  exists z, (3 <= z <= 10)%Z
            /\ url (apiService.generateFlashcards (lit "Cells divide.")
                      (Some (Int 8)))
               = lit "/flashcards?num_cards=" ++ toString (Int z).
Proof.
  assert (Hr : reachable w_demo)
    by (apply run_reachable; [constructor | vm_compute; reflexivity]).
  destruct (num_cards_between_3_and_10 w_demo Hr) as (H & _).
  apply H; [vm_compute; right; left; reflexivity | reflexivity].
Defined.

(* ================================================================== *)
(** ** Requests in flight *)
(* ================================================================== *)

(** While the request of an action is outstanding, no deliverable event
    starts that action again, a drop on the drop zone apart: [nextId]
    counts the [mutate] calls of an observer. *)
Lemma no_duplicate_except_by_drop w ev :
  deliverable w ev = true ->
  (Query.isLoading (uploadMutation w) = true ->
   (forall files, ev <> Drop files) ->
   Query.nextId (uploadMutation (dispatch w ev))
   = Query.nextId (uploadMutation w))
  /\ (Query.isLoading (summaryMutation w) = true ->
      Query.nextId (summaryMutation (dispatch w ev))
      = Query.nextId (summaryMutation w))
  /\ (Query.isLoading (flashcardsMutation w) = true ->
      Query.nextId (flashcardsMutation (dispatch w ev))
      = Query.nextId (flashcardsMutation w)).
Proof.
  intros Hd.
  destruct ev as [c| |files|files|v|v|id r|id r|id r].
  - destruct c; repeat split; intros; try reflexivity.
    all: revert Hd; unfold_render; unfold_handlers.
    all: repeat match goal with
      | H : Query.isLoading _ = true |- _ => rewrite H; clear H
      end.
    all: destruct (truthy_opt (error w)), (activeTab w);
      destruct (truthy (extractedText w));
      destruct (truthy (trim (textInput w)));
      cbn; try discriminate; try reflexivity.
    all: try (destruct (Query.isLoading (uploadMutation w)); reflexivity).
  - repeat split; reflexivity.
  - repeat split; intros; try (exfalso; eapply H0; reflexivity);
      unfold_handlers; destruct (hd_error files) as [f|]; try reflexivity;
      destruct (strict_eq (type f) (lit "application/pdf")); reflexivity.
  - repeat split; intros; revert Hd; unfold_render; unfold_handlers;
      repeat match goal with
      | H : Query.isLoading _ = true |- _ => rewrite H; clear H
      end;
      destruct (hd_error files) as [f|]; try reflexivity;
      destruct (strict_eq (type f) (lit "application/pdf")); try reflexivity;
      destruct (truthy_opt (error w)), (activeTab w);
      destruct (truthy (extractedText w)); cbn; try discriminate; try reflexivity.
  - repeat split; reflexivity.
  - repeat split; reflexivity.
  - repeat split; intros; unfold_handlers; destruct r; reflexivity.
  - repeat split; intros; unfold_handlers; destruct r; reflexivity.
  - repeat split; intros; unfold_handlers; destruct r; reflexivity.
Qed.

(** The drop zone is a [div]: it takes events whenever the PDF tab is
    shown, whether an upload is outstanding or not. *)
Lemma drop_zone_always_enabled w files :
  activeTab w = pdf -> deliverable w (Drop files) = true.
Proof.
  intros H. unfold_render. rewrite H.
  destruct (truthy_opt (error w)); reflexivity.
Qed.

(** C4: the page evaluated where the claim fails. After a PDF is dropped
    its upload is outstanding and the file input is disabled, yet a second
    drop is delivered and sends a second /upload request while the first
    is still pending. *)
Theorem drop_during_upload_sends_again :
  reachable w_uploading
  /\ Query.isLoading (uploadMutation w_uploading) = true
  /\ enabled FileInput w_uploading = false
  /\ deliverable w_uploading (Drop [pdfB]) = true
  /\ sent w_uploading = [apiService.uploadContent (Some pdfA) None]
  /\ sent (dispatch w_uploading (Drop [pdfB]))
     = [apiService.uploadContent (Some pdfA) None;
        apiService.uploadContent (Some pdfB) None]
  /\ Query.pending (uploadMutation (dispatch w_uploading (Drop [pdfB])))
     = [1%nat; 0%nat].
Proof.
  split.
  - apply run_reachable; [constructor | reflexivity].
  - repeat split; reflexivity.
Qed.

(* ================================================================== *)
(** ** The content preview *)
(* ================================================================== *)

(** X1: the preview paragraph is the whole text up to 500 code units,
    and the first 500 code units followed by three dots beyond; it is
    never longer than 503 code units. *)
Theorem preview_bounded (extractedText : jsstring) :
  (List.length (ContentPreview.shown extractedText) <= 503)%nat
  /\ ((List.length extractedText <= 500)%nat ->
      ContentPreview.shown extractedText = extractedText)
  /\ ((500 < List.length extractedText)%nat ->
      ContentPreview.shown extractedText
      = firstn 500 extractedText ++ lit "..."
      /\ List.length (ContentPreview.shown extractedText) = 503%nat).
Proof.
  unfold ContentPreview.shown, ContentPreview.substring.
  destruct (Nat.ltb_spec 500 (List.length extractedText)) as [H|H].
  - cbn [Nat.min Nat.max Nat.sub skipn].
    assert (L : List.length (firstn 500 extractedText ++ lit "...") = 503%nat).
    { rewrite length_app, firstn_length_le by lia. reflexivity. }
    repeat split; try lia; auto.
  - repeat split; try lia; auto.
Qed.

Lemma split_nonempty sep s : ContentPreview.split sep s <> [].
Proof.
  destruct s as [|c s]; simpl; [discriminate|].
  destruct (N.eqb c sep); [discriminate|].
  destruct (ContentPreview.split sep s); discriminate.
Qed.

(** X2: the word count of the preview is one more than the number of
    space characters of the text, whatever lies between them, and the
    pieces joined by spaces are the text again. *)
Theorem words_counts_spaces (extractedText : jsstring) :
  ContentPreview.words extractedText
  = S (count_occ N.eq_dec extractedText 32%N)
  /\ ContentPreview.join 32 (ContentPreview.split 32 extractedText)
     = extractedText.
Proof.
  unfold ContentPreview.words. split.
  - induction extractedText as [|c s IH]; [reflexivity|].
    cbn [ContentPreview.split count_occ].
    destruct (N.eqb_spec c 32) as [->|Hc].
    + destruct (N.eq_dec 32 32) as [_|C]; [|contradiction].
      cbn [List.length]. rewrite IH. reflexivity.
    + destruct (N.eq_dec c 32) as [C|_]; [contradiction|].
      destruct (ContentPreview.split 32 s) as [|p ps] eqn:E.
      * exfalso. eapply split_nonempty, E.
      * exact IH.
  - induction extractedText as [|c s IH]; [reflexivity|].
    cbn [ContentPreview.split].
    destruct (N.eqb_spec c 32) as [->|Hc].
    + pose proof (@split_nonempty 32%N s) as Hne.
      destruct (ContentPreview.split 32 s) as [|p ps] eqn:E; [contradiction|].
      cbn [ContentPreview.join app]. cbn [ContentPreview.join] in IH.
      rewrite IH. reflexivity.
    + pose proof (@split_nonempty 32%N s) as Hne.
      destruct (ContentPreview.split 32 s) as [|p ps] eqn:E; [contradiction|].
      destruct ps as [|q qs]; cbn [ContentPreview.join app] in *;
        rewrite IH; reflexivity.
Qed.

(* ================================================================== *)
(** ** The cards *)
(* ================================================================== *)

Lemma clicked_odd n : FlashcardItem.clicked n = Nat.odd n.
Proof.
  induction n as [|n IH]; [reflexivity|].
  change (FlashcardItem.clicked (S n))
    with (FlashcardItem.onClick (FlashcardItem.clicked n)).
  rewrite IH. unfold FlashcardItem.onClick.
  rewrite Nat.odd_succ, Nat.negb_odd. reflexivity.
Qed.

(** X3: a card shows its question at first and after every even number
    of clicks, and its answer after every odd number; the heading, the
    hint and the highlighted dot follow, exactly one dot being
    highlighted. *)
Theorem card_face_by_parity (flashcard : Flashcard) (index n : nat) :
  let v := FlashcardItem.render flashcard index (FlashcardItem.clicked n) in
  FlashcardItem.body_text v
  = (if Nat.even n then question flashcard else answer flashcard)
  /\ FlashcardItem.heading v
     = (if Nat.even n then lit "Question:" else lit "Answer:")
  /\ FlashcardItem.hint v
     = (if Nat.even n then lit "Click to show answer"
        else lit "Click to show question")
  /\ FlashcardItem.dots v = (Nat.even n, Nat.odd n)
  /\ Nat.even n = negb (Nat.odd n).
Proof.
  cbn zeta. rewrite clicked_odd, <- Nat.negb_odd.
  destruct (Nat.odd n); repeat split; reflexivity.
Qed.





(** An empty list is rendered like no set at all. *)
Lemma empty_set_is_placeholder (fs : FlashcardSet) isFlipped :
  Contract.flashcards fs = [] ->
  FlashcardsResults.render (Some fs) isFlipped
  = FlashcardsResults.render None isFlipped.
Proof.
  intros H. unfold FlashcardsResults.render. rewrite H. reflexivity.
Qed.

(* ================================================================== *)
(** ** Histories of the page *)
(* ================================================================== *)

Ltac crush_dispatch w :=
  unfold_handlers;
  repeat match goal with
    | |- context [Query.isLoading (uploadMutation w)] =>
        destruct (Query.isLoading (uploadMutation w))
    | |- context [truthy (trim (textInput w))] =>
        destruct (truthy (trim (textInput w))) eqn:?
    | |- context [truthy (extractedText w)] =>
        destruct (truthy (extractedText w)) eqn:?
    | |- context [hd_error ?fl] =>
        let f := fresh "f" in destruct (hd_error fl) as [f|] eqn:?
    | |- context [strict_eq (type ?f) ?p] =>
        destruct (strict_eq (type f) p) eqn:?
    | r : (_ + _)%type |- _ => destruct r
    end.

Ltac by_events w ev :=
  let c := fresh "c" in
  destruct ev as [c| | | | | | | | ]; [destruct c|..]; crush_dispatch w.

(** X5: the derived state (extractedText, summary, flashcards) is written
    by successful responses only: along any history of events it is the
    result of folding the three onSuccess updates over the history, all
    other events (clicks, typing, drops, failures) leaving it alone. *)
Theorem content_follows_successes :
  (forall w ev, content (dispatch w ev) = content_step (content w) ev)
  /\ (forall evs w,
         content (run w evs) = fold_left content_step evs (content w)).
Proof.
  assert (H : forall w ev,
             content (dispatch w ev) = content_step (content w) ev).
  { intros w ev. by_events w ev; reflexivity. }
  split; [exact H|].
  induction evs as [|ev evs IH]; intros w; [reflexivity|].
  cbn [run fold_left] in *. unfold run in IH. rewrite IH, H. reflexivity.
Qed.

(** X6: a response is stored whatever has happened since its request was
    sent. When new content is uploaded while a summary and flashcards
    are being generated, and their responses arrive after the upload's,
    the page holds the new text together with the summary and the
    flashcards that were requested for the old one. *)
Theorem stale_results_are_stored :
  forall tA tB s f,
    truthy tA = true ->
    exists w,
      reachable w
      /\ content w = (tB, Some s, Some f)
      /\ sent w
         = [apiService.uploadContent (Some pdfA) None;
            apiService.generateSummary tA;
            apiService.generateFlashcards tA (Some (Int 5));
            apiService.uploadContent (Some pdfB) None].
Proof.
  intros tA tB s f HA.
  exists (run initial
            [Drop [pdfA];
             UploadSettled 0 (inl {| Contract.text := tA |});
             Click GenerateSummary; Click GenerateFlashcards;
             Drop [pdfB];
             UploadSettled 1 (inl {| Contract.text := tB |});
             SummarySettled 0 (inl s); FlashcardsSettled 0 (inl f)]).
  destruct tA as [|c tA]; [discriminate HA|].
  split; [|split].
  - apply run_reachable; [constructor|reflexivity].
  - reflexivity.
  - reflexivity.
Qed.

Lemma stale_results_are_stored_witness :
  exists w,
    reachable w
    /\ extractedText w = lit "New text."
    /\ sent w
       = [apiService.uploadContent (Some pdfA) None;
          apiService.generateSummary (lit "Old text.");
          apiService.generateFlashcards (lit "Old text.") (Some (Int 5));
          apiService.uploadContent (Some pdfB) None].
Proof.
  destruct (stale_results_are_stored (lit "Old text.") (lit "New text.")
              {| Contract.summary := lit "Old."; original_length := 2;
                 summary_length := 1 |}
              {| Contract.flashcards := []; total_count := 0 |} eq_refl)
    as (w & Hr & Hc & Hs).
  exists w. split; [exact Hr|]. split; [|exact Hs].
  injection Hc as E _ _. exact E.
Defined.

(* ================================================================== *)
(** ** The error banner *)
(* ================================================================== *)

(** What an event does to the error message. *)
Lemma dispatch_error w ev :
  error (dispatch w ev) = error w
  \/ error (dispatch w ev) = None
  \/ truthy_opt (error (dispatch w ev)) = true.
Proof.
  by_events w ev; auto; right; right; cbn; apply or_else_truthy; reflexivity.
Qed.

(** X7: every failure puts the banner on the page, whatever the response
    carried: the message is never empty. Closing the banner is then
    possible, removes it, and gives back the page as it was before the
    failure, up to the console log: the same derived state, the same
    local state, the same requests sent. *)
Theorem failure_banner_shown_and_dismissed :
  forall w ev,
    is_failure ev = true ->
    let w1 := dispatch w ev in
    let w2 := dispatch w1 (Click CloseError) in
    truthy_opt (error w1) = true
    /\ deliverable w1 (Click CloseError) = true
    /\ error w2 = None
    /\ enabled CloseError w2 = false
    /\ content w2 = content w
    /\ local_state w2 = local_state w
    /\ sent w2 = sent w.
Proof.
  intros w ev Hf w1 w2.
  assert (H1 : truthy_opt (error w1) = true).
  { subst w1. destruct ev as [| | | | | |id [d|e]|id [d|e]|id [d|e]];
      try discriminate Hf; cbn; apply or_else_truthy; reflexivity. }
  split; [exact H1|].
  split; [cbn [deliverable]; rewrite close_enabled_iff; exact H1|].
  split; [reflexivity|].
  split; [rewrite close_enabled_iff; reflexivity|].
  subst w2 w1.
  destruct ev as [| | | | | |id [d|e]|id [d|e]|id [d|e]];
    try discriminate Hf;
    (split; [reflexivity|]; split; [reflexivity|]);
    unfold sent; cbn; rewrite requests_app; cbn; apply app_nil_r.
Qed.

Lemma failure_banner_shown_and_dismissed_witness :
  let ev := SummarySettled 0 (inr {| response := None |}) in
  error (dispatch initial ev) = Some (lit "Failed to generate summary")
  /\ error (dispatch (dispatch initial ev) (Click CloseError)) = None.
Proof.
  intros ev.
  destruct (failure_banner_shown_and_dismissed initial ev eq_refl)
    as (_ & _ & H & _).
  split; [reflexivity | exact H].
Defined.

(** X8: in every state the page can reach, the error is null or a string
    that is not empty, so the banner is on the page exactly when error is
    not null; and it is null in particular after any request that
    succeeded. *)
Theorem banner_iff_error_set :
  forall w, reachable w ->
    error w <> Some []
    /\ (enabled CloseError w = true <-> error w <> None)
    /\ (forall id data,
           error (dispatch w (UploadSettled id (inl data))) = None)
    /\ (forall id data,
           error (dispatch w (SummarySettled id (inl data))) = None)
    /\ (forall id data,
           error (dispatch w (FlashcardsSettled id (inl data))) = None).
Proof.
  intros w Hr.
  assert (H : error w <> Some []).
  { induction Hr as [|w ev w' Hr IH [_ ->]]; [discriminate|].
    destruct (dispatch_error w ev) as [->|[->|T]]; auto; [discriminate|].
    intros E. rewrite E in T. discriminate T. }
  split; [exact H|].
  split; [|repeat split; reflexivity].
  rewrite close_enabled_iff.
  destruct (error w) as [[|c s]|]; simpl; split; intros;
    try congruence; exfalso; apply H; reflexivity.
Qed.

Lemma banner_iff_error_set_witness :
  error w_demo <> Some [] /\ error w_demo = None.
Proof.
  assert (Hr : reachable w_demo)
    by (apply run_reachable; [constructor | vm_compute; reflexivity]).
  destruct (banner_iff_error_set w_demo Hr) as (H & _).
  split; [exact H | reflexivity].
Defined.

(* ================================================================== *)
(** ** The requests the page sends *)
(* ================================================================== *)

Lemma trim_truthy t : truthy (trim t) = true -> truthy t = true.
Proof. destruct t; [discriminate|reflexivity]. Qed.

(** An event sends at most one request, built by one of the handlers
    behind its guard. *)
Lemma dispatch_issued w ev :
  sent (dispatch w ev) = sent w
  \/ exists r, sent (dispatch w ev) = sent w ++ [r] /\ issued r.
Proof.
  unfold issued.
  by_events w ev; sent_simpl; auto; right; eexists; (split; [reflexivity|]).
  - right; left. eauto.
  - right; right; left. eauto.
  - right; right; right. eauto.
  - left. eexists. split; [|reflexivity]. apply strict_eq_iff. assumption.
  - left. eexists. split; [|reflexivity]. apply strict_eq_iff. assumption.
Qed.

Lemma reachable_issued w :
  reachable w -> forall r, In r (sent w) -> issued r.
Proof.
  induction 1 as [|w ev w' Hr IH [_ ->]]; intros r Hin; [contradiction|].
  destruct (dispatch_issued w ev) as [E|(r' & E & Hi)]; rewrite E in Hin.
  - auto.
  - apply in_app_or in Hin as [Hin|[<-|[]]]; auto.
Qed.

(** X9: every /upload request the page sends is a POST of a multipart
    form with exactly one field: either [file], holding a file of type
    application/pdf, or [text], holding text that is not blank. A form
    with both fields, or with none, is never sent. *)
Theorem uploads_carry_one_field :
  forall w, reachable w ->
    forall r, In r (sent w) -> url r = lit "/upload" ->
      single_field_upload r = true
      /\ method r = POST
      /\ contentType r = lit "multipart/form-data".
Proof.
  intros w Hr r Hin Hu.
  destruct (reachable_issued w Hr r Hin)
    as [(f & Hf & ->)|[(t & Ht & ->)|[(t & _ & ->)|(t & n & _ & ->)]]].
  - repeat split. unfold single_field_upload, apiService.uploadContent.
    cbn [body apiService.api_post apiService.append app].
    rewrite Hf. reflexivity.
  - repeat split. unfold single_field_upload, apiService.uploadContent.
    rewrite (trim_truthy _ Ht). cbn. exact Ht.
  - discriminate Hu.
  - discriminate Hu.
Qed.

Lemma uploads_carry_one_field_witness :
  single_field_upload
    (apiService.uploadContent None (Some (lit "Cells divide."))) = true.
Proof.
  assert (Hr : reachable w_demo)
    by (apply run_reachable; [constructor | vm_compute; reflexivity]).
  apply (uploads_carry_one_field w_demo Hr);
    [vm_compute; left; reflexivity | reflexivity].
Defined.

(** X10: every request the page sends that is not an /upload is a POST of
    the JSON object [{text}] with a text that is not empty, to /summarize
    or to /flashcards?num_cards=N; the health check is never sent. *)
Theorem generate_requests_carry_text :
  forall w, reachable w ->
    forall r, In r (sent w) -> url r <> lit "/upload" ->
      exists t,
        t <> []
        /\ body r = Json_text t
        /\ method r = POST
        /\ contentType r = lit "application/json"
        /\ (url r = lit "/summarize" \/ flashcards_request r = true).
Proof.
  intros w Hr r Hin Hu.
  destruct (reachable_issued w Hr r Hin)
    as [(f & Hf & ->)|[(t & Ht & ->)|[(t & Ht & ->)|(t & n & Ht & ->)]]].
  - exfalso. apply Hu. reflexivity.
  - exfalso. apply Hu. reflexivity.
  - exists t. repeat split; auto. intros ->. discriminate Ht.
  - exists t. repeat split; auto. intros ->. discriminate Ht.
Qed.

Lemma generate_requests_carry_text_witness :
  exists t,
    t <> []
    /\ body (apiService.generateFlashcards (lit "Cells divide.")
               (Some (Int 8))) = Json_text t.
Proof.
  assert (Hr : reachable w_demo)
    by (apply run_reachable; [constructor | vm_compute; reflexivity]).
  destruct (generate_requests_carry_text w_demo Hr
              (apiService.generateFlashcards (lit "Cells divide.")
                 (Some (Int 8))))
    as (t & Ht & Hb & _).
  - vm_compute. right; left. reflexivity.
  - vm_compute. discriminate.
  - exists t. split; [exact Ht | exact Hb].
Defined.

(* ================================================================== *)
(** ** Generate requests in flight *)
(* ================================================================== *)

Lemma enabled_generate_idle w :
  (enabled GenerateSummary w = true ->
   Query.isLoading (summaryMutation w) = false)
  /\ (enabled GenerateFlashcards w = true ->
      Query.isLoading (flashcardsMutation w) = false).
Proof.
  unfold_render.
  destruct (truthy_opt (error w)), (activeTab w),
    (truthy (extractedText w)),
    (Query.isLoading (summaryMutation w)),
    (Query.isLoading (flashcardsMutation w));
    cbn; split; intros; congruence.
Qed.

Lemma dispatch_summaryMutation w ev :
  summaryMutation (dispatch w ev) = summaryMutation w
  \/ (ev = Click GenerateSummary
      /\ summaryMutation (dispatch w ev) = Query.mutate (summaryMutation w))
  \/ (exists id r, ev = SummarySettled id r
      /\ summaryMutation (dispatch w ev)
         = Query.settle id (summaryMutation w)).
Proof.
  by_events w ev; auto; right; right; eexists _, _; split; reflexivity.
Qed.

Lemma dispatch_flashcardsMutation w ev :
  flashcardsMutation (dispatch w ev) = flashcardsMutation w
  \/ (ev = Click GenerateFlashcards
      /\ flashcardsMutation (dispatch w ev)
         = Query.mutate (flashcardsMutation w))
  \/ (exists id r, ev = FlashcardsSettled id r
      /\ flashcardsMutation (dispatch w ev)
         = Query.settle id (flashcardsMutation w)).
Proof.
  by_events w ev; auto; right; right; eexists _, _; split; reflexivity.
Qed.

Lemma at_most_one_idle m :
  at_most_one m -> Query.isLoading m = false -> Query.pending m = [].
Proof.
  intros [H|(id & Hp & Hc)] L; [exact H|].
  unfold Query.isLoading, Query.is_pending in L. rewrite Hc, Hp in L.
  cbn in L. rewrite Nat.eqb_refl in L. discriminate L.
Qed.

Lemma at_most_one_mutate m :
  at_most_one m -> Query.isLoading m = false -> at_most_one (Query.mutate m).
Proof.
  intros H L. right. exists (Query.nextId m).
  unfold Query.mutate. cbn. rewrite (at_most_one_idle m H L). auto.
Qed.

Lemma at_most_one_settle id m :
  at_most_one m -> at_most_one (Query.settle id m).
Proof.
  intros [H|(j & Hp & Hc)]; unfold at_most_one, Query.settle; cbn.
  - left. rewrite H. reflexivity.
  - rewrite Hp. cbn. destruct (Nat.eqb id j); cbn; eauto.
Qed.

Lemma reachable_at_most_one w :
  reachable w ->
  at_most_one (summaryMutation w) /\ at_most_one (flashcardsMutation w).
Proof.
  induction 1 as [|w ev w' Hr [IHs IHf] [Hd ->]].
  - split; left; reflexivity.
  - split.
    + destruct (dispatch_summaryMutation w ev)
        as [->|[(-> & ->)|(id & r & -> & ->)]]; auto.
      * apply at_most_one_mutate; [exact IHs|].
        apply enabled_generate_idle, Hd.
      * apply at_most_one_settle, IHs.
    + destruct (dispatch_flashcardsMutation w ev)
        as [->|[(-> & ->)|(id & r & -> & ->)]]; auto.
      * apply at_most_one_mutate; [exact IHf|].
        apply enabled_generate_idle, Hd.
      * apply at_most_one_settle, IHf.
Qed.

(** X11: in every state the page can reach, at most one /summarize
    request and at most one /flashcards request is outstanding, and an
    observer that is not loading has no outstanding request: the two
    generate buttons are enabled only when nothing of theirs is in
    flight. *)
Theorem one_generate_request_in_flight :
  forall w, reachable w ->
    (List.length (Query.pending (summaryMutation w)) <= 1)%nat
    /\ (List.length (Query.pending (flashcardsMutation w)) <= 1)%nat
    /\ (Query.isLoading (summaryMutation w) = false ->
        Query.pending (summaryMutation w) = [])
    /\ (Query.isLoading (flashcardsMutation w) = false ->
        Query.pending (flashcardsMutation w) = []).
Proof.
  intros w Hr. destruct (reachable_at_most_one w Hr) as [Hs Hf].
  repeat split; try (apply at_most_one_idle; assumption).
  - destruct Hs as [->|(id & -> & _)]; cbn; lia.
  - destruct Hf as [->|(id & -> & _)]; cbn; lia.
Qed.

Lemma one_generate_request_in_flight_witness :
  (List.length (Query.pending (flashcardsMutation w_demo)) <= 1)%nat.
Proof.
  assert (Hr : reachable w_demo)
    by (apply run_reachable; [constructor | vm_compute; reflexivity]).
  destruct (one_generate_request_in_flight w_demo Hr) as (_ & H & _).
  exact H.
Defined.

(* ================================================================== *)
(** ** The local state of FileUpload *)
(* ================================================================== *)

Lemma sent_monotone w ev r : In r (sent w) -> In r (sent (dispatch w ev)).
Proof.
  intros H.
  destruct (dispatch_sent w ev) as [->|[(f & t & ->)|[(_ & ->)|(_ & ->)]]];
    auto using in_or_app.
Qed.

Lemma dispatch_selectedFile w ev :
  selectedFile (dispatch w ev) = selectedFile w
  \/ exists f,
       type f = lit "application/pdf"
       /\ selectedFile (dispatch w ev) = Some f
       /\ sent (dispatch w ev)
          = sent w ++ [apiService.uploadContent (Some f) None].
Proof.
  by_events w ev; auto; right; eexists;
    (split; [apply strict_eq_iff; eassumption|]);
    (split; [reflexivity|]); sent_simpl; reflexivity.
Qed.

(** X12: in every state the page can reach, the file whose name the drop
    zone shows, if any, has type application/pdf, and an /upload request
    carrying that very file has been sent. *)
Theorem selected_file_was_uploaded :
  forall w, reachable w ->
    forall f, selectedFile w = Some f ->
      type f = lit "application/pdf"
      /\ In (apiService.uploadContent (Some f) None) (sent w).
Proof.
  induction 1 as [|w ev w' Hr IH [_ ->]]; intros f Hf; [discriminate Hf|].
  destruct (dispatch_selectedFile w ev) as [E|(g & Hg & E & Hs)].
  - rewrite E in Hf. destruct (IH f Hf) as [Ht Hin].
    split; [exact Ht|]. apply sent_monotone, Hin.
  - rewrite E in Hf. injection Hf as <-. split; [exact Hg|].
    rewrite Hs. apply in_or_app. right. left. reflexivity.
Qed.

Lemma selected_file_was_uploaded_witness :
  type pdfA = lit "application/pdf"
  /\ In (apiService.uploadContent (Some pdfA) None) (sent w_uploading).
Proof.
  assert (Hr : reachable w_uploading)
    by (apply run_reachable; [constructor | reflexivity]).
  apply (selected_file_was_uploaded w_uploading Hr pdfA). reflexivity.
Defined.

(** X13: the text box and the tab are written by their own controls
    only: typing sets textInput, a tab button sets activeTab, and no
    other event touches them; submitting the text, or the upload
    succeeding, does not clear the text box. *)
Theorem text_and_tab_kept :
  forall w ev,
    textInput (dispatch w ev)
    = match ev with
      | ChangeText value => value
      | _ => textInput w
      end
    /\ activeTab (dispatch w ev)
       = match ev with
         | Click TabPdf => pdf
         | Click TabText => text_tab
         | _ => activeTab w
         end.
Proof.
  intros w ev. by_events w ev; split; reflexivity.
Qed.

(* ================================================================== *)
(** ** From a control to the request *)
(* ================================================================== *)

(** The generate buttons are on the page and enabled exactly when there
    is text and their observer is not loading. *)
Lemma enabled_generate_iff w :
  enabled GenerateSummary w
  = truthy (extractedText w) && negb (Query.isLoading (summaryMutation w))
  /\ enabled GenerateFlashcards w
     = truthy (extractedText w)
       && negb (Query.isLoading (flashcardsMutation w)).
Proof.
  unfold_render.
  destruct (truthy_opt (error w)), (activeTab w),
    (truthy (extractedText w)),
    (Query.isLoading (summaryMutation w)),
    (Query.isLoading (flashcardsMutation w)); split; reflexivity.
Qed.

(** X14: when the Generate Summary button is clicked in a state the page
    can reach, one /summarize request carrying the extracted text is
    sent and is the only one outstanding. In every reachable state in
    which a /summarize request is outstanding the button is not an
    enabled control; its settling, with a result or with an error, can
    be delivered, leaves no request outstanding and leaves the text as
    it is, and the button is enabled afterwards exactly when the text
    is not empty at that moment (an upload answered with empty text in
    between has removed the section). *)
Theorem summary_button_life_cycle :
  forall w, reachable w ->
    (deliverable w (Click GenerateSummary) = true ->
     let w1 := dispatch w (Click GenerateSummary) in
     sent w1 = sent w ++ [apiService.generateSummary (extractedText w)]
     /\ Query.pending (summaryMutation w1)
        = [Query.nextId (summaryMutation w)])
    /\ (forall id,
          In id (Query.pending (summaryMutation w)) ->
          enabled GenerateSummary w = false
          /\ forall r,
               deliverable w (SummarySettled id r) = true
               /\ let w2 := dispatch w (SummarySettled id r) in
                  Query.pending (summaryMutation w2) = []
                  /\ extractedText w2 = extractedText w
                  /\ enabled GenerateSummary w2
                     = truthy (extractedText w2)).
Proof.
  intros w Hr. pose proof (proj1 (reachable_at_most_one w Hr)) as Hone.
  split.
  - intros Hd w1. cbn [deliverable] in Hd.
    pose proof (proj1 (enabled_generate_idle w) Hd) as Hl.
    rewrite (proj1 (enabled_generate_iff w)), Hl, andb_true_r in Hd.
    pose proof (at_most_one_idle _ Hone Hl) as Hp.
    subst w1. unfold_handlers. rewrite Hd. split.
    + sent_simpl. reflexivity.
    + cbn. rewrite Hp. reflexivity.
  - intros id Hin.
    destruct Hone as [Hp|(j & Hp & Hc)]; [rewrite Hp in Hin; contradiction|].
    rewrite Hp in Hin. destruct Hin as [<-|[]].
    assert (Hl : Query.isLoading (summaryMutation w) = true).
    { unfold Query.isLoading, Query.is_pending. rewrite Hc, Hp. cbn.
      rewrite Nat.eqb_refl. reflexivity. }
    split.
    + rewrite (proj1 (enabled_generate_iff w)), Hl. apply andb_false_r.
    + intros r. split.
      * cbn [deliverable]. unfold Query.is_pending. rewrite Hp. cbn.
        rewrite Nat.eqb_refl. reflexivity.
      * cbv zeta.
        assert (M2 : summaryMutation (dispatch w (SummarySettled j r))
                     = Query.settle j (summaryMutation w))
          by (destruct r; reflexivity).
        assert (E2 : extractedText (dispatch w (SummarySettled j r))
                     = extractedText w)
          by (destruct r; reflexivity).
        assert (P2 : Query.pending (Query.settle j (summaryMutation w)) = []).
        { unfold Query.settle. cbn. rewrite Hp. cbn.
          rewrite Nat.eqb_refl. reflexivity. }
        split; [rewrite M2; exact P2|]. split; [exact E2|].
        rewrite (proj1 (enabled_generate_iff _)), M2.
        unfold Query.isLoading, Query.is_pending. rewrite P2.
        destruct (Query.current (Query.settle j (summaryMutation w)));
          cbn; apply andb_true_r.
Qed.

Lemma summary_button_life_cycle_witness :
  let w := run initial
             [Drop [pdfA];
              UploadSettled 0 (inl {| Contract.text := lit "Cells." |});
              Click GenerateSummary] in
  enabled GenerateSummary w = false
  /\ enabled GenerateSummary
       (dispatch w (SummarySettled 0 (inr {| response := None |}))) = true.
Proof.
  intros w.
  assert (Hr : reachable w)
    by (apply run_reachable; [constructor | reflexivity]).
  destruct (summary_button_life_cycle w Hr) as (_ & H).
  destruct (H 0%nat (or_introl eq_refl)) as (Hd & Hs).
  split; [exact Hd|].
  destruct (Hs (inr {| response := None |})) as (_ & _ & _ & He).
  exact He.
Defined.

(** X15: submitting text that is not blank sends exactly one /upload
    request, whose form has the single field [text] holding the text as
    it was typed, surrounding white space included. *)
Theorem text_is_sent_as_typed :
  forall w,
    truthy (trim (textInput w)) = true ->
    let w' := dispatch w (Click SubmitText) in
    exists r,
      sent w' = sent w ++ [r]
      /\ url r = lit "/upload"
      /\ body r = FormData [(lit "text", FormString (textInput w))].
Proof.
  intros w H w'. subst w'. unfold_handlers. rewrite H.
  eexists. split; [sent_simpl; reflexivity|].
  split; [reflexivity|].
  unfold apiService.uploadContent. rewrite (trim_truthy _ H). reflexivity.
Qed.

Lemma text_is_sent_as_typed_witness :
  let w := dispatch initial (ChangeText (lit "  spaced  ")) in
  exists r,
    sent (dispatch w (Click SubmitText)) = sent w ++ [r]
    /\ body r = FormData [(lit "text", FormString (lit "  spaced  "))].
Proof.
  intros w.
  destruct (text_is_sent_as_typed w eq_refl) as (r & Hs & _ & Hb).
  exists r. split; [exact Hs | exact Hb].
Defined.

(** X16: of the files selected or dropped together only the first is
    looked at: the others change nothing, so a PDF that is not first is
    not uploaded. With no file at all the picker's handler does nothing,
    while the drop handler alerts. *)
Theorem only_first_file_counts :
  forall w file others,
    dispatch w (ChangeFile (file :: others)) = dispatch w (ChangeFile [file])
    /\ dispatch w (Drop (file :: others)) = dispatch w (Drop [file])
    /\ dispatch w (ChangeFile []) = w
    /\ effects (dispatch w (Drop []))
       = effects w ++ [PreventDefault; Alert (lit "Please drop a PDF file")].
Proof.
  intros w file others. repeat split.
  unfold_handlers; cbn. rewrite <- app_assoc. reflexivity.
Qed.

(** X17: the value chosen in the selector is the value the next
    /flashcards request carries in its URL, character for character. *)
Theorem chosen_count_is_requested :
  forall w value,
    selectable value w = true ->
    let w1 := dispatch w (ChangeSelect value) in
    let w2 := dispatch w1 (Click GenerateFlashcards) in
    exists r,
      sent w2 = sent w ++ [r]
      /\ url r = lit "/flashcards?num_cards=" ++ value
      /\ body r = Json_text (extractedText w).
Proof.
  intros w value Hs w1 w2.
  assert (Ht : truthy (extractedText w) = true).
  { revert Hs. unfold_render.
    destruct (truthy_opt (error w)), (activeTab w),
      (truthy (extractedText w)); cbn; congruence. }
  apply selectable_offered, offered_parse in Hs.
  destruct Hs as (z & _ & Hv & Hp).
  subst w2 w1. unfold_handlers. cbn. rewrite Ht, Hp.
  eexists. split; [sent_simpl; reflexivity|].
  split; [|reflexivity].
  cbn [url apiService.generateFlashcards apiService.api_post].
  rewrite <- Hv. reflexivity.
Qed.

Lemma chosen_count_is_requested_witness :
  let w := run initial
             [Drop [pdfA];
              UploadSettled 0 (inl {| Contract.text := lit "Cells." |})] in
  exists r,
    sent (dispatch (dispatch w (ChangeSelect (lit "10")))
            (Click GenerateFlashcards)) = sent w ++ [r]
    /\ url r = lit "/flashcards?num_cards=10".
Proof.
  intros w.
  destruct (chosen_count_is_requested w (lit "10") eq_refl)
    as (r & Hs & Hu & _).
  exists r. split; [exact Hs | exact Hu].
Defined.

(** X18: after a successful upload the content preview, the Generate
    Summary button, the card selector and the Generate Flashcards button
    are on the page, enabled or not, exactly when the returned text is
    not empty; each of the two buttons is an enabled control exactly
    when moreover its observer is not loading; the flashcards area, when
    shown, shows its placeholder. When the returned text is empty the
    page consists of the controls of FileUpload alone. *)
Theorem sections_follow_returned_text :
  forall w id data,
    let w' := dispatch w (UploadSettled id (inl data)) in
    (ContentPreview.render (extractedText w') = None
     <-> Contract.text data = [])
    /\ on_page GenerateSummary w' = truthy (Contract.text data)
    /\ on_page NumCardsSelect w' = truthy (Contract.text data)
    /\ on_page GenerateFlashcards w' = truthy (Contract.text data)
    /\ enabled GenerateSummary w'
       = truthy (Contract.text data)
         && negb (Query.isLoading (summaryMutation w))
    /\ enabled GenerateFlashcards w'
       = truthy (Contract.text data)
         && negb (Query.isLoading (flashcardsMutation w))
    /\ (forall isFlipped,
           FlashcardsResults.render (flashcards w') isFlipped
           = FlashcardsResults.Placeholder)
    /\ (Contract.text data = [] ->
        render w'
        = FileUpload.render (Query.isLoading (uploadMutation w')) w').
Proof.
  intros w id data w'.
  destruct (enabled_generate_iff w') as [Es Ef].
  rewrite Es, Ef. subst w'.
  split; [cbn; unfold ContentPreview.render;
          destruct (Contract.text data); cbn; split; congruence|].
  split; [unfold on_page, render, FileUpload.render, SummarySection.render,
            FlashcardsSection.render; cbn;
          destruct (activeTab w), (truthy (Contract.text data));
          reflexivity|].
  split; [unfold on_page, render, FileUpload.render, SummarySection.render,
            FlashcardsSection.render; cbn;
          destruct (activeTab w), (truthy (Contract.text data));
          reflexivity|].
  split; [unfold on_page, render, FileUpload.render, SummarySection.render,
            FlashcardsSection.render; cbn;
          destruct (activeTab w), (truthy (Contract.text data));
          reflexivity|].
  split; [reflexivity|]. split; [reflexivity|]. split; [reflexivity|].
  intros H. unfold render, SummarySection.render, FlashcardsSection.render.
  cbn. rewrite H. cbn. rewrite app_nil_r. reflexivity.
Qed.
